(** * Type-level model of [4/lib/associations/belongs-to.d.ts]

    The file is a TypeScript declaration file: it contains interface and
    class declarations and no executable statement.  The development
    below transcribes every declaration of the file as a value of a small
    syntax of TypeScript declarations ([decl]), and gives that syntax the
    meaning the TypeScript checker gives it: member resolution through
    [extends] clauses, instantiation of type parameters, assignability of
    argument expressions to parameter types and arity checking of calls.

    The types the file imports from [./base], [../model], [../data-types]
    and [../promise] are declared elsewhere; they are section variables
    here, so every result holds for whatever those modules declare. *)

From Stdlib Require Import String List Bool Arith Lia.
Import ListNotations.
Open Scope string_scope.
Open Scope list_scope.

Set Implicit Arguments.
Set Warnings "-register-all".

(** ** Syntax of types and declarations *)

Inductive ty : Type :=
| TString
| TBoolean
| TNumber
| TVoid
| TUndefined
| TNull
| TVar (name : string)
| TRef (name : string) (args : list ty)
| TUnion (l r : ty).

(** A property of an interface or class body: [name?: type]. *)
Record member : Type := Member
  { m_name : string; m_optional : bool; m_type : ty }.

(** A parameter of a call or construct signature: [name?: type]. *)
Record param : Type := Param
  { p_name : string; p_optional : bool; p_type : ty }.

Record signature : Type := Signature
  { s_params : list param; s_return : ty }.

(** A type parameter with its [extends] bound. *)
Record tparam : Type := TParam
  { tp_name : string; tp_bound : option ty }.

Inductive decl_kind : Type := KInterface | KClass.

Record decl : Type := Decl
  { d_kind : decl_kind;
    d_name : string;
    d_tparams : list tparam;
    d_extends : list ty;
    d_members : list member;
    d_calls : list signature;          (* call signatures of an interface *)
    d_constructors : list (list param) (* construct signatures of a class *) }.

Record module_decl : Type := ModuleDecl
  { mod_imports : list (string * list string);
    mod_decls : list decl;
    mod_default : option string }.

(** ** The declarations of the file, in source order *)

Definition Promise (t : ty) : ty := TRef "Promise" [t].
Definition Partial (t : ty) : ty := TRef "Partial" [t].

Definition BelongsToOptions : decl :=
  {| d_kind := KInterface;
     d_name := "BelongsToOptions";
     d_tparams := [];
     d_extends := [TRef "AssociationOptions" []];
     d_members :=
       [ Member "targetKey" true TString;
         Member "keyType" true (TRef "DataType" []) ];
     d_calls := [];
     d_constructors := [] |}.

Definition BelongsTo : decl :=
  {| d_kind := KClass;
     d_name := "BelongsTo";
     d_tparams :=
       [ TParam "TSource" (Some (TRef "Model" [TRef "Instance" []]));
         TParam "TTarget" (Some (TRef "Model" [TRef "Instance" []])) ];
     d_extends := [TRef "Association" [TVar "TSource"; TVar "TTarget"]];
     d_members :=
       [ Member "accessors" false (TRef "SingleAssociationAccessors" []) ];
     d_calls := [];
     d_constructors :=
       [ [ Param "source" false (TVar "TSource");
           Param "target" false (TVar "TTarget");
           Param "options" false (TRef "BelongsToOptions" []) ] ] |}.

Definition BelongsToGetAssociationMixinOptions : decl :=
  {| d_kind := KInterface;
     d_name := "BelongsToGetAssociationMixinOptions";
     d_tparams := [];
     d_extends := [];
     d_members := [ Member "scope" true (TUnion TString TBoolean) ];
     d_calls := [];
     d_constructors := [] |}.

Definition BelongsToGetAssociationMixin : decl :=
  {| d_kind := KInterface;
     d_name := "BelongsToGetAssociationMixin";
     d_tparams := [ TParam "TInstance" (Some (TRef "Instance" [])) ];
     d_extends := [];
     d_members := [];
     d_calls :=
       [ Signature
           [ Param "options" true
               (TRef "BelongsToGetAssociationMixinOptions" []) ]
           (Promise (TVar "TInstance")) ];
     d_constructors := [] |}.

Definition BelongsToSetAssociationMixinOptions : decl :=
  {| d_kind := KInterface;
     d_name := "BelongsToSetAssociationMixinOptions";
     d_tparams := [ TParam "TInstance" (Some (TRef "Instance" [])) ];
     d_extends := [TRef "SaveOptions" [TVar "TInstance"]];
     d_members := [ Member "save" true TBoolean ];
     d_calls := [];
     d_constructors := [] |}.

Definition BelongsToSetAssociationMixin : decl :=
  {| d_kind := KInterface;
     d_name := "BelongsToSetAssociationMixin";
     d_tparams :=
       [ TParam "TInstance" (Some (TRef "Instance" []));
         TParam "TPrimaryKey" None ];
     d_extends := [];
     d_members := [];
     d_calls :=
       [ Signature
           [ Param "newAssociation" true
               (TUnion (TVar "TInstance") (TVar "TPrimaryKey"));
             Param "options" true
               (TRef "BelongsToSetAssociationMixinOptions"
                  [TVar "TInstance"]) ]
           (Promise TVoid) ];
     d_constructors := [] |}.

Definition BelongsToCreateAssociationMixinOptions : decl :=
  {| d_kind := KInterface;
     d_name := "BelongsToCreateAssociationMixinOptions";
     d_tparams :=
       [ TParam "TModel" (Some (TRef "Model" [TVar "TInstance"]));
         TParam "TInstance" (Some (TRef "Instance" [])) ];
     d_extends :=
       [ TRef "CreateOptions" [TVar "TModel"; TVar "TInstance"];
         TRef "BelongsToSetAssociationMixinOptions" [TVar "TInstance"] ];
     d_members := [];
     d_calls := [];
     d_constructors := [] |}.

Definition BelongsToCreateAssociationMixin : decl :=
  {| d_kind := KInterface;
     d_name := "BelongsToCreateAssociationMixin";
     d_tparams :=
       [ TParam "TModel" (Some (TRef "Model" [TVar "TInstance"]));
         TParam "TInstance" (Some (TRef "Instance" [])) ];
     d_extends := [];
     d_members := [];
     d_calls :=
       [ Signature
           [ Param "values" true (Partial (TVar "TInstance"));
             Param "options" true
               (TRef "BelongsToCreateAssociationMixinOptions"
                  [TVar "TModel"; TVar "TInstance"]) ]
           (Promise (TVar "TInstance")) ];
     d_constructors := [] |}.

Definition belongs_to_d_ts : module_decl :=
  {| mod_imports :=
       [ ("./base", ["Association"; "SingleAssociationAccessors"]);
         ("../model", ["Model"; "Instance"; "SaveOptions"; "CreateOptions"]);
         ("../data-types", ["DataType"]);
         ("./base", ["AssociationOptions"]);
         ("../promise", ["Promise"]) ];
     mod_decls :=
       [ BelongsToOptions;
         BelongsTo;
         BelongsToGetAssociationMixinOptions;
         BelongsToGetAssociationMixin;
         BelongsToSetAssociationMixinOptions;
         BelongsToSetAssociationMixin;
         BelongsToCreateAssociationMixinOptions;
         BelongsToCreateAssociationMixin ];
     mod_default := Some "BelongsTo" |}.

(** ** Equality of types, substitution of type parameters *)

Fixpoint ty_eqb (a b : ty) {struct a} : bool :=
  match a, b with
  | TString, TString => true
  | TBoolean, TBoolean => true
  | TNumber, TNumber => true
  | TVoid, TVoid => true
  | TUndefined, TUndefined => true
  | TNull, TNull => true
  | TVar x, TVar y => String.eqb x y
  | TRef n xs, TRef m ys =>
      String.eqb n m &&
      (fix all2 (xs ys : list ty) {struct xs} : bool :=
         match xs, ys with
         | [], [] => true
         | x :: xs', y :: ys' => ty_eqb x y && all2 xs' ys'
         | _, _ => false
         end) xs ys
  | TUnion a1 a2, TUnion b1 b2 => ty_eqb a1 b1 && ty_eqb a2 b2
  | _, _ => false
  end.

Fixpoint assoc {A : Type} (k : string) (l : list (string * A)) : option A :=
  match l with
  | [] => None
  | (k', v) :: l' => if String.eqb k' k then Some v else assoc k l'
  end.

(** [subst s t] replaces the type parameters of [t] by their arguments. *)
Fixpoint subst (s : list (string * ty)) (t : ty) {struct t} : ty :=
  match t with
  | TVar x => match assoc x s with Some u => u | None => TVar x end
  | TRef n args => TRef n (map (subst s) args)
  | TUnion l r => TUnion (subst s l) (subst s r)
  | _ => t
  end.

Definition subst_member (s : list (string * ty)) (m : member) : member :=
  Member (m_name m) (m_optional m) (subst s (m_type m)).

Definition subst_param (s : list (string * ty)) (p : param) : param :=
  Param (p_name p) (p_optional p) (subst s (p_type p)).

Definition subst_signature (s : list (string * ty)) (g : signature)
  : signature :=
  Signature (map (subst_param s) (s_params g)) (subst s (s_return g)).

Definition lookup_decl (m : module_decl) (n : string) : option decl :=
  find (fun d => String.eqb (d_name d) n) (mod_decls m).

(** The instantiation [T1 := a1, ..., Tn := an] of a declaration's type
    parameters at the arguments of a reference to it. *)
Definition instantiation (d : decl) (args : list ty) : list (string * ty) :=
  combine (map tp_name (d_tparams d)) args.

(** The members of the alternatives of a union type, left to right. *)
Fixpoint alts (t : ty) : list ty :=
  match t with
  | TUnion l r => alts l ++ alts r
  | _ => [t]
  end.

(** The type at which a member or parameter is read and written: an
    optional one also admits [undefined]. *)
Definition optional_type (opt : bool) (t : ty) : ty :=
  if opt then TUnion t TUndefined else t.

Definition make_optional (m : member) : member :=
  Member (m_name m) true (m_type m).

(** ** Argument expressions *)

(** The shapes of expression a call site passes: the literals, object
    literals, and [ETyped t] for any expression of static type [t] (a
    variable holding an instance, say). *)
Inductive expr : Type :=
| EUndefined
| ENull
| EString (s : string)
| EBoolean (b : bool)
| ENumber (n : nat)
| EObject (fields : list (string * expr))
| ETyped (t : ty).

Definition nullish (e : expr) : bool :=
  match e with
  | EUndefined | ENull | ETyped TUndefined | ETyped TNull => true
  | _ => false
  end.

Definition literal_fits (e : expr) (a : ty) : bool :=
  match e, a with
  | EUndefined, (TUndefined | TVoid) => true
  | ETyped TUndefined, TVoid => true
  | ENull, TNull => true
  | EString _, TString => true
  | EBoolean _, TBoolean => true
  | ENumber _, TNumber => true
  | _, _ => false
  end.

(** ** The checker *)

Section Checker.

(** The module under check. *)
Variable M : module_decl.

(** What the imported modules declare: the members of an imported
    interface at given type arguments, and which expressions the checker
    assigns to an imported type. *)
Variable imported_members : string -> list ty -> list member.
Variable imported_accepts : string -> list ty -> expr -> bool.

(** Members of a type of a heritage clause, through at most [n] local
    declarations.  A chain of [extends] clauses without a cycle visits
    each declaration once, so [length (mod_decls M)] is always enough. *)
Fixpoint inherited (n : nat) (t : ty) {struct n} : list member :=
  match t with
  | TRef name args =>
      match lookup_decl M name with
      | Some d =>
          match n with
          | 0 => []
          | S n' =>
              let s := instantiation d args in
              flat_map (fun b => inherited n' (subst s b)) (d_extends d)
              ++ map (subst_member s) (d_members d)
          end
      | None => imported_members name args
      end
  | _ => []
  end.

(** All members of a type: inherited ones first, then its own.
    [Partial<T>] is the built-in mapped type making each member of [T]
    optional. *)
Fixpoint members_of (t : ty) {struct t} : list member :=
  match t with
  | TRef name args =>
      match lookup_decl M name, args with
      | None, [u] =>
          if String.eqb name "Partial"
          then map make_optional (members_of u)
          else imported_members name args
      | _, _ => inherited (length (mod_decls M)) t
      end
  | _ => []
  end.

(** [structural n]: references to [n] are checked member by member. *)
Definition structural (name : string) : bool :=
  match lookup_decl M name with
  | Some _ => true
  | None => String.eqb name "Partial"
  end.

(** Subtyping by declared heritage. *)
Fixpoint extends_fuel (n : nat) (s t : ty) {struct n} : bool :=
  ty_eqb s t ||
  match n, s with
  | S n', TRef name args =>
      match lookup_decl M name with
      | Some d =>
          existsb
            (fun b => extends_fuel n' (subst (instantiation d args) b) t)
            (d_extends d)
      | None => false
      end
  | _, _ => false
  end.

Definition subtype (s t : ty) : bool :=
  extends_fuel (length (mod_decls M)) s t.

Section Fits.

(** The compiler option [strictNullChecks] of the calling project:
    without it [null] and [undefined] belong to every type. *)
Variable strictNullChecks : bool.

(** [atom_fits e a]: the expression [e], not an object literal, is
    assignable to the type [a], not a union. *)
Definition atom_fits (e : expr) (a : ty) : bool :=
  (negb strictNullChecks && nullish e)
  || literal_fits e a
  || match e with
     | ETyped s => subtype s a
     | _ => false
     end
  || match a with
     | TRef name args =>
         negb (structural name) && imported_accepts name args e
     | _ => false
     end.

(** [record_ok check fl ms]: the object literal with fields [fl] gives
    every required member of [ms], gives no member that [ms] does not
    declare, and gives each member a value that [check] accepts at the
    member's type. *)
Definition record_ok (check : expr -> ty -> bool)
  (fl : list (string * expr)) (ms : list member) : bool :=
  forallb
    (fun m =>
       m_optional m || existsb (String.eqb (m_name m)) (map fst fl))
    ms
  && forallb
       (fun kv =>
          existsb (fun m => String.eqb (m_name m) (fst kv)) ms
          && forallb
               (fun m =>
                  negb (String.eqb (m_name m) (fst kv))
                  || check (snd kv)
                       (optional_type (m_optional m) (m_type m)))
               ms)
       fl.

(** [assignable e t]: the expression [e] may be passed where a [t] is
    expected.  An object literal is checked against the members of one
    alternative of [t]; an expression of a union type must be
    assignable at each of its alternatives. *)
Fixpoint assignable (e : expr) (t : ty) {struct e} : bool :=
  match e with
  | EObject fl =>
      existsb
        (fun a =>
           match a with
           | TRef name args =>
               if structural name
               then record_ok assignable fl (members_of a)
               else imported_accepts name args e
           | _ => false
           end)
        (alts t)
  | ETyped s =>
      forallb (fun s1 => existsb (atom_fits (ETyped s1)) (alts t)) (alts s)
  | _ => existsb (atom_fits e) (alts t)
  end.

Definition arg_ok (e : expr) (p : param) : bool :=
  assignable e (optional_type (p_optional p) (p_type p)).

(** Arguments against parameters, left to right: a missing argument
    needs an optional parameter, an argument beyond the last parameter
    is an error. *)
Fixpoint accepts (ps : list param) (args : list expr) : bool :=
  match ps, args with
  | [], [] => true
  | [], _ :: _ => false
  | p :: ps', [] => p_optional p && accepts ps' []
  | p :: ps', e :: args' => arg_ok e p && accepts ps' args'
  end.

End Fits.

(** The call signatures of a type: those of the interface it refers to,
    at its type arguments. *)
Definition call_signatures (t : ty) : list signature :=
  match t with
  | TRef name args =>
      match lookup_decl M name with
      | Some d => map (subst_signature (instantiation d args)) (d_calls d)
      | None => []
      end
  | _ => []
  end.

Definition construct_signatures (t : ty) : list (list param) :=
  match t with
  | TRef name args =>
      match lookup_decl M name with
      | Some d =>
          map (map (subst_param (instantiation d args))) (d_constructors d)
      | None => []
      end
  | _ => []
  end.

(** The type of the call [f(args)] for [f : t]: the return type of the
    first signature that accepts the arguments, [None] when the call
    does not type-check. *)
Definition call_result (strict : bool) (t : ty) (args : list expr)
  : option ty :=
  option_map s_return
    (find (fun g => accepts strict (s_params g) args) (call_signatures t)).

(** The type of [new C<targs>(args)], likewise. *)
Definition construct_result (strict : bool) (t : ty) (args : list expr)
  : option ty :=
  option_map (fun _ => t)
    (find (fun ps => accepts strict ps args) (construct_signatures t)).

End Checker.

Definition default_export (M : module_decl) : option decl :=
  match mod_default M with
  | Some n => lookup_decl M n
  | None => None
  end.

Definition required_count (ps : list param) : nat :=
  length (filter (fun p => negb (p_optional p)) ps).

(** ** References to the declared and to the imported types *)

Definition BelongsToOptionsT : ty := TRef "BelongsToOptions" [].
Definition BelongsToT (TSource TTarget : ty) : ty :=
  TRef "BelongsTo" [TSource; TTarget].
Definition GetOptionsT : ty := TRef "BelongsToGetAssociationMixinOptions" [].
Definition GetMixinT (TInstance : ty) : ty :=
  TRef "BelongsToGetAssociationMixin" [TInstance].
Definition SetOptionsT (TInstance : ty) : ty :=
  TRef "BelongsToSetAssociationMixinOptions" [TInstance].
Definition SetMixinT (TInstance TPrimaryKey : ty) : ty :=
  TRef "BelongsToSetAssociationMixin" [TInstance; TPrimaryKey].
Definition CreateMixinOptionsT (TModel TInstance : ty) : ty :=
  TRef "BelongsToCreateAssociationMixinOptions" [TModel; TInstance].
Definition CreateMixinT (TModel TInstance : ty) : ty :=
  TRef "BelongsToCreateAssociationMixin" [TModel; TInstance].

Definition AssociationOptionsT : ty := TRef "AssociationOptions" [].
Definition AssociationT (TSource TTarget : ty) : ty :=
  TRef "Association" [TSource; TTarget].
Definition SaveOptionsT (TInstance : ty) : ty :=
  TRef "SaveOptions" [TInstance].
Definition CreateOptionsT (TModel TInstance : ty) : ty :=
  TRef "CreateOptions" [TModel; TInstance].

(** ** An example of imported declarations

    The modules the file imports are not part of it.  The environment
    below is one possibility of what they declare, used to run the checker
    on concrete calls: a few optional members for the three imported
    option interfaces, and imported types that accept exactly the
    expressions whose static type is a reference to them. *)

Definition example_members (name : string) (args : list ty) : list member :=
  if String.eqb name "AssociationOptions" then
    [ Member "as" true TString; Member "foreignKey" true TString ]
  else if String.eqb name "SaveOptions" then
    [ Member "validate" true TBoolean ]
  else if String.eqb name "CreateOptions" then
    [ Member "isNewRecord" true TBoolean ]
  else [].

Definition example_accepts (name : string) (args : list ty) (e : expr)
  : bool :=
  match e with
  | ETyped (TRef n _) => String.eqb n name
  | _ => false
  end.

Definition example_call : bool -> ty -> list expr -> option ty :=
  call_result belongs_to_d_ts example_members example_accepts.

Definition InstanceT : ty := TRef "Instance" [].

(** ** Scoping of the names a module uses *)

(** The type parameters and the type names a type mentions. *)
Fixpoint ty_vars (t : ty) {struct t} : list string :=
  match t with
  | TVar x => [x]
  | TRef _ args => flat_map ty_vars args
  | TUnion l r => ty_vars l ++ ty_vars r
  | _ => []
  end.

Fixpoint ty_names (t : ty) {struct t} : list string :=
  match t with
  | TRef n args => n :: flat_map ty_names args
  | TUnion l r => ty_names l ++ ty_names r
  | _ => []
  end.

Definition signature_types (g : signature) : list ty :=
  s_return g :: map p_type (s_params g).

(** Every type written in a declaration: the bounds of its type
    parameters, its heritage, the types of its members and of its call
    and construct signatures. *)
Definition decl_types (d : decl) : list ty :=
  flat_map (fun tp => match tp_bound tp with Some b => [b] | None => [] end)
    (d_tparams d)
  ++ d_extends d
  ++ map m_type (d_members d)
  ++ flat_map signature_types (d_calls d)
  ++ flat_map (map p_type) (d_constructors d).

Definition declared_names (M : module_decl) : list string :=
  map d_name (mod_decls M).

Definition imported_names (M : module_decl) : list string :=
  flat_map snd (mod_imports M).

Definition elem (x : string) (l : list string) : bool :=
  existsb (String.eqb x) l.

(** A type name is in scope when the module declares it, imports it, or
    it is the built-in [Partial]. *)
Definition in_scope (M : module_decl) (n : string) : bool :=
  elem n (declared_names M) || elem n (imported_names M)
  || String.eqb n "Partial".

(** [well_scoped M]: each declaration of [M] mentions only type names in
    scope and only its own type parameters. *)
Definition well_scoped (M : module_decl) : bool :=
  forallb
    (fun d =>
       forallb
         (fun t =>
            forallb (in_scope M) (ty_names t)
            && forallb (fun x => elem x (map tp_name (d_tparams d)))
                 (ty_vars t))
         (decl_types d))
    (mod_decls M).



Definition closed (t : ty) : bool :=
  match ty_vars t with [] => true | _ :: _ => false end.

(** A second example environment, with an imported instance interface
    [RoleInstance] that has two required members. *)
Definition role_members (name : string) (args : list ty) : list member :=
  if String.eqb name "RoleInstance" then
    [ Member "id" false TNumber; Member "name" false TString ]
  else example_members name args.

Definition RoleInstanceT : ty := TRef "RoleInstance" [].

(** ** General facts about the checker *)

Lemma ty_eqb_refl : forall t, ty_eqb t t = true.
Proof.
  fix IH 1.
  intros [ | | | | | | x | n args | l r]; simpl; try reflexivity.
  - apply String.eqb_refl.
  - rewrite String.eqb_refl. simpl.
    induction args as [|a args IHargs]; [reflexivity|].
    rewrite (IH a). simpl. exact IHargs.
  - now rewrite (IH l), (IH r).
Qed.

Lemma subtype_refl M t : subtype M t t = true.
Proof.
  unfold subtype.
  destruct (length (mod_decls M)); simpl; now rewrite ty_eqb_refl.
Qed.

Lemma forallb_make_optional (ms : list member) :
  forallb m_optional (map make_optional ms) = true.
Proof. induction ms; simpl; auto. Qed.

Lemma assoc_absent {A : Type} k (fl : list (string * A)) kv :
  assoc k fl = None -> In kv fl -> String.eqb k (fst kv) = false.
Proof.
  induction fl as [|[k' v'] fl IH]; simpl; [tauto|].
  destruct (String.eqb k' k) eqn:E; [discriminate|].
  intros H [<-|Hin]; [|now apply IH].
  simpl. now rewrite String.eqb_sym.
Qed.

(** Optional members an object literal does not mention can be added to
    the expected members without breaking the literal. *)
Lemma record_ok_app_absent check fl ms extra :
  record_ok check fl ms = true ->
  (forall m, In m extra ->
             m_optional m = true /\ assoc (m_name m) fl = None) ->
  record_ok check fl (ms ++ extra) = true.
Proof.
  unfold record_ok. intros H Hextra.
  apply andb_prop in H as [Hreq Heach].
  apply andb_true_intro. split.
  - rewrite forallb_app, Hreq. simpl.
    apply forallb_forall. intros m Hm.
    destruct (Hextra m Hm) as [-> _]. reflexivity.
  - rewrite forallb_forall in Heach |- *. intros kv Hkv.
    specialize (Heach kv Hkv). apply andb_prop in Heach as [Hex Hall].
    rewrite existsb_app, Hex, forallb_app, Hall. simpl.
    apply forallb_forall. intros m Hm.
    destruct (Hextra m Hm) as [_ Habs].
    now rewrite (assoc_absent _ _ _ Habs Hkv).
Qed.

Section CheckerFacts.

Variable M : module_decl.
Variable imported_members : string -> list ty -> list member.
Variable imported_accepts : string -> list ty -> expr -> bool.
Variable strict : bool.

Local Abbreviation assignable' :=
  (assignable M imported_members imported_accepts strict).
Local Abbreviation accepts' :=
  (accepts M imported_members imported_accepts strict).

(** A call is accepted only with at least as many arguments as there
    are required parameters and at most as many as there are
    parameters. *)
Lemma accepts_arity ps args :
  accepts' ps args = true ->
  required_count ps <= length args <= length ps.
Proof.
  unfold required_count.
  revert args. induction ps as [|p ps IH]; intros [|e args] H; simpl in *;
    try discriminate; try lia.
  - apply andb_prop in H as [Hp H]. rewrite Hp. simpl.
    specialize (IH [] H). simpl in IH. lia.
  - apply andb_prop in H as [_ H]. specialize (IH args H).
    destruct (p_optional p); simpl; lia.
Qed.

(** [undefined] is assignable to every optional parameter. *)
Lemma undefined_optional t :
  assignable' EUndefined (optional_type true t) = true.
Proof.
  simpl. rewrite existsb_app. simpl.
  unfold atom_fits at 2. simpl.
  now rewrite !orb_true_r.
Qed.

(** An expression of static type [s] is assignable where each
    alternative of [s] is one of the expected alternatives. *)
Lemma typed_assignable s t :
  incl (alts s) (alts t) -> assignable' (ETyped s) t = true.
Proof.
  intros Hincl. simpl. apply forallb_forall. intros s1 Hs1.
  apply existsb_exists. exists s1. split; [now apply Hincl|].
  unfold atom_fits. rewrite subtype_refl.
  now rewrite orb_true_r.
Qed.

Lemma assignable_record fl name args :
  structural M name = true ->
  assignable' (EObject fl) (TRef name args)
  = record_ok assignable' fl (members_of M imported_members (TRef name args)).
Proof.
  intros H. cbn [assignable alts existsb]. rewrite H. apply orb_false_r.
Qed.

(** With a single call signature there is no overload to resolve. *)
Lemma call_single t g args :
  call_signatures M t = [g] ->
  call_result M imported_members imported_accepts strict t args
  = if accepts' (s_params g) args then Some (s_return g) else None.
Proof.
  intros E. unfold call_result. rewrite E. simpl.
  now destruct (accepts' (s_params g) args).
Qed.

End CheckerFacts.

(** ** The declarations of [belongs-to.d.ts] under the checker *)

Section BelongsToFile.

(** Whatever [./base], [../model], [../data-types] and [../promise]
    declare. *)
Variable imported_members : string -> list ty -> list member.
Variable imported_accepts : string -> list ty -> expr -> bool.

Local Abbreviation members :=
  (members_of belongs_to_d_ts imported_members).
Local Abbreviation sub := (subtype belongs_to_d_ts).
Local Abbreviation signatures := (call_signatures belongs_to_d_ts).
Local Abbreviation constructors := (construct_signatures belongs_to_d_ts).
Local Abbreviation can_assign :=
  (assignable belongs_to_d_ts imported_members imported_accepts).
Local Abbreviation call :=
  (call_result belongs_to_d_ts imported_members imported_accepts).
Local Abbreviation construct :=
  (construct_result belongs_to_d_ts imported_members imported_accepts).

(** C1: the members of [BelongsToCreateAssociationMixinOptions] are those
    of [CreateOptions] followed by those of
    [BelongsToSetAssociationMixinOptions], at the same type arguments,
    and the interface declares no member of its own. *)
Theorem create_options_members_are_union (TModel TInstance : ty) :
  members (CreateMixinOptionsT TModel TInstance)
  = members (CreateOptionsT TModel TInstance)
    ++ members (SetOptionsT TInstance)
  /\ (forall m : member,
        In m (members (CreateMixinOptionsT TModel TInstance))
        <-> In m (members (CreateOptionsT TModel TInstance))
            \/ In m (members (SetOptionsT TInstance)))
  /\ d_members BelongsToCreateAssociationMixinOptions = []
  /\ lookup_decl belongs_to_d_ts "BelongsToCreateAssociationMixinOptions"
     = Some BelongsToCreateAssociationMixinOptions.
Proof.
  assert (E : members (CreateMixinOptionsT TModel TInstance)
              = members (CreateOptionsT TModel TInstance)
                ++ members (SetOptionsT TInstance)).
  { cbn. now rewrite !app_nil_r. }
  split; [exact E|]. split; [|split; reflexivity].
  intros m. rewrite E. apply in_app_iff.
Qed.

(** C5: the members of [BelongsToSetAssociationMixinOptions] are those of
    [SaveOptions] at the same instance type followed by the single
    optional boolean [save]; the interface is a subtype of
    [SaveOptions]. *)
Theorem set_options_extend_save_options (TInstance : ty) :
  members (SetOptionsT TInstance)
  = members (SaveOptionsT TInstance) ++ [Member "save" true TBoolean]
  /\ sub (SetOptionsT TInstance) (SaveOptionsT TInstance) = true.
Proof.
  split.
  - cbn. now rewrite !app_nil_r.
  - cbn. rewrite ty_eqb_refl. reflexivity.
Qed.

(** C9: the options of the create mixin contain the optional boolean
    [save] and every member of [SaveOptions] and of [CreateOptions]; the
    options type is a subtype of the set mixin's options, and it is the
    type of the create mixin's second parameter. *)
Theorem create_options_include_save_options (TModel TInstance : ty) :
  In (Member "save" true TBoolean)
     (members (CreateMixinOptionsT TModel TInstance))
  /\ incl (members (SaveOptionsT TInstance))
          (members (CreateMixinOptionsT TModel TInstance))
  /\ incl (members (CreateOptionsT TModel TInstance))
          (members (CreateMixinOptionsT TModel TInstance))
  /\ sub (CreateMixinOptionsT TModel TInstance) (SetOptionsT TInstance)
     = true
  /\ map (fun g => map p_type (s_params g))
         (signatures (CreateMixinT TModel TInstance))
     = [[Partial TInstance; CreateMixinOptionsT TModel TInstance]].
Proof.
  assert (E : members (CreateMixinOptionsT TModel TInstance)
              = members (CreateOptionsT TModel TInstance)
                ++ members (SaveOptionsT TInstance)
                ++ [Member "save" true TBoolean]).
  { cbn. now rewrite !app_nil_r. }
  rewrite E. repeat split.
  - apply in_or_app. right. apply in_or_app. right. now left.
  - intros m Hm. apply in_or_app. right. apply in_or_app. now left.
  - intros m Hm. apply in_or_app. now left.
  - cbn. rewrite ty_eqb_refl. cbn. now rewrite ?orb_true_r.
Qed.

(** C3: the options of the get mixin have the single member
    [scope?: string | boolean]; the mixin has one call signature, with
    that options record as its only, optional, parameter and
    [Promise<TInstance>] as its result; a call with no argument, with an
    empty record, and with a string or a boolean [scope] type-checks. *)
Theorem get_mixin_signature (strict : bool) (TInstance : ty) :
  members GetOptionsT = [Member "scope" true (TUnion TString TBoolean)]
  /\ signatures (GetMixinT TInstance)
     = [Signature [Param "options" true GetOptionsT] (Promise TInstance)]
  /\ call strict (GetMixinT TInstance) [] = Some (Promise TInstance)
  /\ call strict (GetMixinT TInstance) [EObject []]
     = Some (Promise TInstance)
  /\ (forall s : string,
        call strict (GetMixinT TInstance) [EObject [("scope", EString s)]]
        = Some (Promise TInstance))
  /\ (forall b : bool,
        call strict (GetMixinT TInstance) [EObject [("scope", EBoolean b)]]
        = Some (Promise TInstance)).
Proof.
  repeat split; intros; destruct strict; reflexivity.
Qed.

Lemma set_mixin_signatures (TInstance TPrimaryKey : ty) :
  signatures (SetMixinT TInstance TPrimaryKey)
  = [Signature
       [ Param "newAssociation" true (TUnion TInstance TPrimaryKey);
         Param "options" true (SetOptionsT TInstance) ]
       (Promise TVoid)].
Proof. reflexivity. Qed.

(** C6: the single call signature of the set mixin returns
    [Promise<void>]; every call that type-checks has that type, and
    calls with no argument, with the association only, and with the
    association and the options type-check. *)
Theorem set_mixin_returns_promise_void
  (strict : bool) (TInstance TPrimaryKey : ty) :
  map s_return (signatures (SetMixinT TInstance TPrimaryKey))
  = [Promise TVoid]
  /\ (forall args,
        call strict (SetMixinT TInstance TPrimaryKey) args
        = Some (Promise TVoid)
        \/ call strict (SetMixinT TInstance TPrimaryKey) args = None)
  /\ call strict (SetMixinT TInstance TPrimaryKey) []
     = Some (Promise TVoid)
  /\ call strict (SetMixinT TInstance TPrimaryKey) [ETyped TInstance]
     = Some (Promise TVoid)
  /\ call strict (SetMixinT TInstance TPrimaryKey) [ETyped TPrimaryKey]
     = Some (Promise TVoid)
  /\ call strict (SetMixinT TInstance TPrimaryKey)
       [ETyped TInstance; ETyped (SetOptionsT TInstance)]
     = Some (Promise TVoid).
Proof.
  pose proof (set_mixin_signatures TInstance TPrimaryKey) as E.
  split; [reflexivity|]. split.
  { intros args. erewrite call_single by exact E.
    destruct (accepts _ _ _ _ _ _); [left | right]; reflexivity. }
  assert (A1 : can_assign strict (ETyped TInstance)
                 (optional_type true (TUnion TInstance TPrimaryKey))
               = true).
  { apply typed_assignable. cbn. intros x Hx.
    rewrite !in_app_iff. auto. }
  assert (A2 : can_assign strict (ETyped TPrimaryKey)
                 (optional_type true (TUnion TInstance TPrimaryKey))
               = true).
  { apply typed_assignable. cbn. intros x Hx.
    rewrite !in_app_iff. auto. }
  assert (A3 : can_assign strict (ETyped (SetOptionsT TInstance))
                 (optional_type true (SetOptionsT TInstance))
               = true).
  { apply typed_assignable. cbn. intros x [<-|[]]. now left. }
  repeat split; erewrite call_single by exact E;
    cbn [s_params s_return accepts p_optional andb];
    unfold arg_ok; cbn [p_optional p_type];
    rewrite ?A1, ?A2, ?A3; reflexivity.
Qed.

Lemma create_mixin_signatures (TModel TInstance : ty) :
  signatures (CreateMixinT TModel TInstance)
  = [Signature
       [ Param "values" true (Partial TInstance);
         Param "options" true (CreateMixinOptionsT TModel TInstance) ]
       (Promise TInstance)].
Proof. reflexivity. Qed.

Lemma partial_members (t : ty) :
  members (Partial t) = map make_optional (members t).
Proof. reflexivity. Qed.

(** The empty object literal is a [Partial<T>] for every [T]. *)
Lemma empty_record_partial (strict : bool) (t : ty) :
  can_assign strict (EObject []) (optional_type true (Partial t)) = true.
Proof.
  cbn [optional_type alts Partial app assignable existsb].
  change (structural belongs_to_d_ts "Partial") with true.
  cbv iota. fold (Partial t). rewrite partial_members.
  unfold record_ok. cbn [forallb map fst existsb].
  rewrite andb_true_r.
  replace (forallb _ _) with true; [reflexivity|].
  symmetry. apply forallb_forall. intros m Hm.
  apply in_map_iff in Hm as [m0 [<- _]]. reflexivity.
Qed.

(** C7: the create mixin has one call signature; both parameters are
    optional, the first is [Partial<TInstance>], all of whose members
    are optional, and the result is [Promise<TInstance>], in the
    declaration a promise of the type parameter and not of [void].
    Calls with no argument, with an empty set of values, and with values
    and options type-check. *)
Theorem create_mixin_signature (strict : bool) (TModel TInstance : ty) :
  signatures (CreateMixinT TModel TInstance)
  = [Signature
       [ Param "values" true (Partial TInstance);
         Param "options" true (CreateMixinOptionsT TModel TInstance) ]
       (Promise TInstance)]
  /\ members (Partial TInstance) = map make_optional (members TInstance)
  /\ forallb m_optional (members (Partial TInstance)) = true
  /\ map s_return (d_calls BelongsToCreateAssociationMixin)
     = [Promise (TVar "TInstance")]
  /\ ty_eqb (Promise (TVar "TInstance")) (Promise TVoid) = false
  /\ call strict (CreateMixinT TModel TInstance) []
     = Some (Promise TInstance)
  /\ call strict (CreateMixinT TModel TInstance) [EObject []]
     = Some (Promise TInstance)
  /\ call strict (CreateMixinT TModel TInstance)
       [EObject []; ETyped (CreateMixinOptionsT TModel TInstance)]
     = Some (Promise TInstance).
Proof.
  pose proof (create_mixin_signatures TModel TInstance) as E.
  pose proof (empty_record_partial strict TInstance) as A1.
  assert (A2 : can_assign strict
                 (ETyped (CreateMixinOptionsT TModel TInstance))
                 (optional_type true
                    (CreateMixinOptionsT TModel TInstance))
               = true).
  { apply typed_assignable. cbn. intros x [<-|[]]. now left. }
  split; [exact E|]. split; [reflexivity|].
  split; [rewrite partial_members; apply forallb_make_optional|].
  split; [reflexivity|]. split; [reflexivity|].
  repeat split; erewrite call_single by exact E;
    cbn [s_params s_return accepts p_optional andb];
    unfold arg_ok; cbn [p_optional p_type];
    rewrite ?A1, ?A2; reflexivity.
Qed.

Lemma belongs_to_constructors (TSource TTarget : ty) :
  constructors (BelongsToT TSource TTarget)
  = [[ Param "source" false TSource;
       Param "target" false TTarget;
       Param "options" false BelongsToOptionsT ]].
Proof. reflexivity. Qed.

(** C8: the single constructor of [BelongsTo] has three parameters, none
    optional, although the members [BelongsToOptions] declares are all
    optional; [new BelongsTo(source, target)] does not type-check,
    whatever the two arguments, and [new BelongsTo(source, target,
    options)] does. *)
Theorem constructor_requires_options
  (strict : bool) (TSource TTarget : ty) :
  constructors (BelongsToT TSource TTarget)
  = [[ Param "source" false TSource;
       Param "target" false TTarget;
       Param "options" false BelongsToOptionsT ]]
  /\ map required_count (constructors (BelongsToT TSource TTarget)) = [3]
  /\ forallb m_optional (d_members BelongsToOptions) = true
  /\ (forall a b : expr,
        construct strict (BelongsToT TSource TTarget) [a; b] = None)
  /\ construct strict (BelongsToT TSource TTarget)
       [ETyped TSource; ETyped TTarget; ETyped BelongsToOptionsT]
     = Some (BelongsToT TSource TTarget).
Proof.
  pose proof (belongs_to_constructors TSource TTarget) as E.
  split; [exact E|]. split; [reflexivity|]. split; [reflexivity|]. split.
  - intros a b. unfold construct_result. rewrite E. cbn [find].
    destruct (accepts _ _ _ _ _ [a; b]) eqn:H; [|reflexivity].
    apply accepts_arity in H. cbn in H. lia.
  - unfold construct_result. rewrite E.
    cbn [find accepts]. unfold arg_ok. cbn [p_optional p_type optional_type].
    rewrite !typed_assignable by apply incl_refl. reflexivity.
Qed.

(** C10: [BelongsTo<TSource, TTarget>] is a subtype of
    [Association<TSource, TTarget>]; its members are those of
    [Association] and the required [accessors] of type
    [SingleAssociationAccessors]; the default export of the module is
    the class [BelongsTo]. *)
Theorem belongs_to_is_association (TSource TTarget : ty) :
  sub (BelongsToT TSource TTarget) (AssociationT TSource TTarget) = true
  /\ members (BelongsToT TSource TTarget)
     = members (AssociationT TSource TTarget)
       ++ [Member "accessors" false (TRef "SingleAssociationAccessors" [])]
  /\ default_export belongs_to_d_ts = Some BelongsTo
  /\ d_kind BelongsTo = KClass.
Proof.
  repeat split.
  - cbn. rewrite !ty_eqb_refl. reflexivity.
  - cbn. now rewrite !app_nil_r.
Qed.

Lemma belongs_to_options_members :
  members BelongsToOptionsT
  = members AssociationOptionsT
    ++ [ Member "targetKey" true TString;
         Member "keyType" true (TRef "DataType" []) ].
Proof. cbn. now rewrite !app_nil_r. Qed.

(** C4: [BelongsToOptions] adds to the members of [AssociationOptions]
    the optional string [targetKey] and the optional [keyType] of type
    [DataType]; an options literal that gives neither of the two and is
    a well-formed [AssociationOptions] is a well-formed
    [BelongsToOptions], and [new BelongsTo(source, target, options)]
    type-checks with it. *)
Theorem options_without_keys_conform
  (strict : bool) (TSource TTarget : ty) (fl : list (string * expr)) :
  assoc "targetKey" fl = None ->
  assoc "keyType" fl = None ->
  record_ok (can_assign strict) fl (members AssociationOptionsT) = true ->
  members BelongsToOptionsT
  = members AssociationOptionsT
    ++ [ Member "targetKey" true TString;
         Member "keyType" true (TRef "DataType" []) ]
  /\ can_assign strict (EObject fl) BelongsToOptionsT = true
  /\ construct strict (BelongsToT TSource TTarget)
       [ETyped TSource; ETyped TTarget; EObject fl]
     = Some (BelongsToT TSource TTarget).
Proof.
  intros Htk Hkt Hbase.
  assert (A : can_assign strict (EObject fl) BelongsToOptionsT = true).
  { unfold BelongsToOptionsT.
    rewrite assignable_record by reflexivity.
    fold BelongsToOptionsT. rewrite belongs_to_options_members.
    apply record_ok_app_absent; [exact Hbase|].
    intros m [<-|[<-|[]]]; split; auto. }
  split; [apply belongs_to_options_members|]. split; [exact A|].
  unfold construct_result. rewrite belongs_to_constructors.
  cbn [find accepts]. unfold arg_ok. cbn [p_optional p_type optional_type].
  rewrite !typed_assignable by apply incl_refl. rewrite A. reflexivity.
Qed.

(** The first argument of the set mixin: omitted, [undefined], an
    instance or a primary key always type-check. *)
Lemma set_mixin_undefined_argument (strict : bool) (TInstance TPrimaryKey : ty) :
  call strict (SetMixinT TInstance TPrimaryKey) [] = Some (Promise TVoid)
  /\ call strict (SetMixinT TInstance TPrimaryKey) [EUndefined]
     = Some (Promise TVoid).
Proof.
  pose proof (set_mixin_signatures TInstance TPrimaryKey) as E.
  split; erewrite call_single by exact E;
    cbn [s_params s_return accepts p_optional andb]; [reflexivity|].
  unfold arg_ok. cbn [p_optional p_type].
  now rewrite undefined_optional.
Qed.

(** [null] as the first argument of the set mixin type-checks exactly
    when the caller compiles without [strictNullChecks] or one of the
    two type arguments admits [null] itself. *)
Lemma set_mixin_null_argument (strict : bool) (TInstance TPrimaryKey : ty) :
  call strict (SetMixinT TInstance TPrimaryKey) [ENull]
  = if negb strict
       || can_assign true ENull TInstance
       || can_assign true ENull TPrimaryKey
    then Some (Promise TVoid) else None.
Proof.
  pose proof (set_mixin_signatures TInstance TPrimaryKey) as E.
  erewrite call_single by exact E.
  cbn [s_params s_return accepts p_optional andb].
  unfold arg_ok. cbn [p_optional p_type optional_type].
  rewrite !andb_true_r.
  cbn [assignable alts]. rewrite !existsb_app.
  destruct strict.
  - cbn [existsb negb orb]. unfold atom_fits at 3. cbn.
    now rewrite !orb_false_r.
  - cbn [existsb]. unfold atom_fits at 3. cbn.
    now rewrite !orb_true_r.
Qed.

End BelongsToFile.

(** ** Concrete calls *)

Lemma options_without_keys_conform_witness :
  assoc "targetKey" [("as", EString "role")] = None
  /\ assoc "keyType" [("as", EString "role")] = None
  /\ record_ok (assignable belongs_to_d_ts example_members example_accepts true)
       [("as", EString "role")]
       (members_of belongs_to_d_ts example_members AssociationOptionsT)
     = true
  /\ members_of belongs_to_d_ts example_members BelongsToOptionsT
     = members_of belongs_to_d_ts example_members AssociationOptionsT
       ++ [ Member "targetKey" true TString;
            Member "keyType" true (TRef "DataType" []) ]
  /\ assignable belongs_to_d_ts example_members example_accepts true
       (EObject [("as", EString "role")]) BelongsToOptionsT = true
  /\ construct_result belongs_to_d_ts example_members example_accepts true
       (BelongsToT (TRef "User" []) (TRef "Role" []))
       [ ETyped (TRef "User" []); ETyped (TRef "Role" []);
         EObject [("as", EString "role")] ]
     = Some (BelongsToT (TRef "User" []) (TRef "Role" [])).
Proof.
  split; [reflexivity|]. split; [reflexivity|]. split; [reflexivity|].
  apply (options_without_keys_conform example_members example_accepts true
           (TRef "User" []) (TRef "Role" []) [("as", EString "role")]);
    reflexivity.
Defined.

(** C2: under [strictNullChecks], with [TInstance := Instance] and
    [TPrimaryKey := number], the call [setRole(null)] does not type-check,
    whereas [setRole()], [setRole(undefined)], an instance and a key do;
    without [strictNullChecks] the same call with [null] type-checks. *)
Theorem set_mixin_rejects_null_when_strict :
  example_call true (SetMixinT InstanceT TNumber) [ENull] = None
  /\ example_call true (SetMixinT InstanceT TNumber) [] = Some (Promise TVoid)
  /\ example_call true (SetMixinT InstanceT TNumber) [EUndefined]
     = Some (Promise TVoid)
  /\ example_call true (SetMixinT InstanceT TNumber) [ETyped InstanceT]
     = Some (Promise TVoid)
  /\ example_call true (SetMixinT InstanceT TNumber) [ENumber 7]
     = Some (Promise TVoid)
  /\ example_call false (SetMixinT InstanceT TNumber) [ENull]
     = Some (Promise TVoid).
Proof. repeat split; vm_compute; reflexivity. Qed.

(** The create mixin called with the [save] flag and a generic create
    option in its options record. *)
Example create_call_with_save_flag :
  example_call true (CreateMixinT (TRef "RoleModel" []) InstanceT)
    [ EObject [];
      EObject [("save", EBoolean false); ("isNewRecord", EBoolean true);
               ("validate", EBoolean true)] ]
  = Some (Promise InstanceT).
Proof. vm_compute. reflexivity. Qed.

(** The get mixin rejects a [scope] that is neither a string nor a
    boolean, and any member other than [scope]. *)
Example get_call_rejections :
  example_call true (GetMixinT InstanceT) [EObject [("scope", ENumber 1)]]
  = None
  /\ example_call true (GetMixinT InstanceT)
       [EObject [("where", EString "x")]]
     = None.
Proof. split; vm_compute; reflexivity. Qed.

(** ** Scoping and instantiation *)

Lemma closed_vars t : closed t = true <-> ty_vars t = [].
Proof. unfold closed. destruct (ty_vars t); split; congruence. Qed.

Lemma elem_In x l : elem x l = true <-> In x l.
Proof.
  unfold elem. rewrite existsb_exists. split.
  - intros [y [Hy E]]. apply String.eqb_eq in E. now subst.
  - intros H. exists x. split; [exact H|apply String.eqb_refl].
Qed.

(** A substitution that gives a closed type to each parameter of [t]
    leaves no parameter in [t]. *)
Lemma subst_closes s :
  forall t,
    (forall x, In x (ty_vars t) ->
               exists u, assoc x s = Some u /\ ty_vars u = []) ->
    ty_vars (subst s t) = [].
Proof.
  fix IH 1.
  intros [ | | | | | | x | n args | l r] H; simpl in *; try reflexivity.
  - destruct (H x (or_introl eq_refl)) as [u [-> Hu]]. exact Hu.
  - induction args as [|a args IHargs]; [reflexivity|]. simpl in *.
    rewrite (IH a), IHargs; [reflexivity| |].
    + intros x Hx. apply H. apply in_or_app. now right.
    + intros x Hx. apply H. apply in_or_app. now left.
  - rewrite (IH l), (IH r); [reflexivity| |];
      intros x Hx; apply H; apply in_or_app; auto.
Qed.

Lemma assoc_combine (names : list string) :
  forall (args : list ty) x,
    In x names -> length args = length names ->
    exists u, assoc x (combine names args) = Some u /\ In u args.
Proof.
  induction names as [|k names IH]; intros [|a args] x Hin Hlen;
    simpl in *; try tauto; try discriminate.
  destruct (String.eqb k x) eqn:E.
  - exists a. auto.
  - destruct Hin as [->|Hin]; [now rewrite String.eqb_refl in E|].
    destruct (IH args x Hin) as [u [Hu Hin']]; [lia|].
    exists u. auto.
Qed.

Section Instantiation.

Variable M : module_decl.
Hypothesis scoped : well_scoped M = true.

Variable d : decl.
Variable args : list ty.
Hypothesis declared : In d (mod_decls M).
Hypothesis arity : length args = length (d_tparams d).
Hypothesis closed_args : forallb closed args = true.

Lemma instantiated_type_closed t :
  In t (decl_types d) -> closed (subst (instantiation d args) t) = true.
Proof.
  intros Ht. apply closed_vars, subst_closes. intros x Hx.
  unfold well_scoped in scoped. rewrite forallb_forall in scoped.
  specialize (scoped d declared). rewrite forallb_forall in scoped.
  specialize (scoped t Ht). apply andb_prop in scoped as [_ Hvars].
  rewrite forallb_forall in Hvars. specialize (Hvars x Hx).
  apply elem_In in Hvars.
  destruct (assoc_combine (map tp_name (d_tparams d)) args x Hvars)
    as [u [Hu Hin]].
  { now rewrite length_map. }
  exists u. split; [exact Hu|].
  rewrite forallb_forall in closed_args. now apply closed_vars, closed_args.
Qed.

Lemma instantiated_signature_closed g :
  In g (d_calls d) ->
  forallb closed (signature_types (subst_signature (instantiation d args) g))
  = true.
Proof.
  intros Hg. apply forallb_forall. intros t Ht.
  assert (In t (map (subst (instantiation d args)) (signature_types g))) as Ht'.
  { unfold signature_types, subst_signature in *. simpl in *.
    destruct Ht as [<-|Ht]; [now left|right].
    rewrite map_map in Ht. rewrite map_map. exact Ht. }
  apply in_map_iff in Ht' as [t0 [<- Ht0]].
  apply instantiated_type_closed.
  unfold decl_types. rewrite !in_app_iff. do 3 right. left.
  apply in_flat_map. now exists g.
Qed.

Lemma instantiated_constructor_closed ps :
  In ps (d_constructors d) ->
  forallb (fun p => closed (p_type p))
    (map (subst_param (instantiation d args)) ps)
  = true.
Proof.
  intros Hps. apply forallb_forall. intros p Hp.
  apply in_map_iff in Hp as [p0 [<- Hp0]]. simpl.
  apply instantiated_type_closed.
  unfold decl_types. rewrite !in_app_iff. do 4 right.
  apply in_flat_map. exists ps. split; [exact Hps|]. now apply in_map.
Qed.

End Instantiation.


(** X2: instantiating a declaration of the file at closed type arguments, one
    for each of its type parameters, leaves no type parameter in its call
    signatures nor in its construct signatures. *)
Theorem instantiated_signatures_closed
  (name : string) (d : decl) (args : list ty) :
  lookup_decl belongs_to_d_ts name = Some d ->
  length args = length (d_tparams d) ->
  forallb closed args = true ->
  forallb (fun g => forallb closed (signature_types g))
    (call_signatures belongs_to_d_ts (TRef name args)) = true
  /\ forallb (forallb (fun p => closed (p_type p)))
       (construct_signatures belongs_to_d_ts (TRef name args)) = true.
Proof.
  intros Hl Hlen Hcl.
  assert (Hin : In d (mod_decls belongs_to_d_ts)).
  { unfold lookup_decl in Hl. now apply find_some in Hl. }
  assert (Hws : well_scoped belongs_to_d_ts = true) by (vm_compute; reflexivity).
  unfold call_signatures, construct_signatures. rewrite Hl. split.
  - apply forallb_forall. intros g Hg.
    apply in_map_iff in Hg as [g0 [<- Hg0]].
    now apply instantiated_signature_closed with (M := belongs_to_d_ts).
  - apply forallb_forall. intros ps Hps.
    apply in_map_iff in Hps as [ps0 [<- Hps0]].
    now apply instantiated_constructor_closed with (M := belongs_to_d_ts).
Qed.

Lemma instantiated_signatures_closed_witness :
  lookup_decl belongs_to_d_ts "BelongsToSetAssociationMixin"
  = Some BelongsToSetAssociationMixin
  /\ length [InstanceT; TNumber]
     = length (d_tparams BelongsToSetAssociationMixin)
  /\ forallb closed [InstanceT; TNumber] = true
  /\ forallb (fun g => forallb closed (signature_types g))
       (call_signatures belongs_to_d_ts (SetMixinT InstanceT TNumber)) = true
  /\ forallb (forallb (fun p => closed (p_type p)))
       (construct_signatures belongs_to_d_ts (SetMixinT InstanceT TNumber))
     = true.
Proof.
  split; [reflexivity|]. split; [reflexivity|]. split; [reflexivity|].
  apply (@instantiated_signatures_closed "BelongsToSetAssociationMixin"
           BelongsToSetAssociationMixin [InstanceT; TNumber]);
    reflexivity.
Defined.

(** An expression whose static type is not a union is assignable where a
    supertype of its type is one of the expected alternatives. *)
Lemma typed_assignable_subtype M im ia strict s a t :
  alts s = [s] -> In a (alts t) -> subtype M s a = true ->
  assignable M im ia strict (ETyped s) t = true.
Proof.
  intros Hs Ha Hsub. cbn [assignable]. rewrite Hs. cbn [forallb].
  rewrite andb_true_r. apply existsb_exists. exists a. split; [exact Ha|].
  unfold atom_fits. rewrite Hsub. now rewrite ?orb_true_r.
Qed.

(** ** Unfolding one link of a heritage chain *)

Lemma inherited_step M im n name args :
  inherited M im (S n) (TRef name args)
  = match lookup_decl M name with
    | Some d =>
        flat_map (fun b => inherited M im n (subst (instantiation d args) b))
          (d_extends d)
        ++ map (subst_member (instantiation d args)) (d_members d)
    | None => im name args
    end.
Proof. reflexivity. Qed.

Lemma extends_step M n name args t :
  extends_fuel M (S n) (TRef name args) t
  = ty_eqb (TRef name args) t
    || match lookup_decl M name with
       | Some d =>
           existsb
             (fun b => extends_fuel M n (subst (instantiation d args) b) t)
             (d_extends d)
       | None => false
       end.
Proof. reflexivity. Qed.

(** ** Object literals against member lists *)

Lemma forallb_false {A : Type} (f : A -> bool) (l : list A) (x : A) :
  In x l -> f x = false -> forallb f l = false.
Proof.
  intros Hin Hx. destruct (forallb f l) eqn:E; [|reflexivity].
  rewrite forallb_forall in E. rewrite (E x Hin) in Hx. discriminate.
Qed.

(** A literal that gives a member a value outside the member's type is
    rejected. *)
Lemma record_rejects_value check fl ms m v :
  In m ms -> In (m_name m, v) fl ->
  check v (optional_type (m_optional m) (m_type m)) = false ->
  record_ok check fl ms = false.
Proof.
  intros Hm Hkv Hv. unfold record_ok.
  rewrite (forallb_false _ _ _ Hkv); [apply andb_false_r|].
  cbn [fst snd].
  rewrite (forallb_false _ ms m Hm); [apply andb_false_r|].
  now rewrite String.eqb_refl, Hv.
Qed.

(** A literal that lacks a required member is rejected. *)
Lemma record_rejects_missing check fl ms m :
  In m ms -> m_optional m = false -> assoc (m_name m) fl = None ->
  record_ok check fl ms = false.
Proof.
  intros Hm Hreq Habs. unfold record_ok.
  rewrite (forallb_false _ ms m Hm); [reflexivity|].
  rewrite Hreq. cbn [orb].
  destruct (existsb _ _) eqn:E; [|reflexivity].
  apply existsb_exists in E as [k [Hk E]].
  apply in_map_iff in Hk as [kv [<- Hkv]].
  now rewrite (assoc_absent _ _ _ Habs Hkv) in E.
Qed.

(** When every member is optional, each part of an accepted literal is
    accepted. *)
Lemma record_ok_incl check fl fl' ms :
  forallb m_optional ms = true -> incl fl' fl ->
  record_ok check fl ms = true -> record_ok check fl' ms = true.
Proof.
  unfold record_ok. intros Hopt Hincl H.
  apply andb_prop in H as [_ Heach]. apply andb_true_intro. split.
  - rewrite forallb_forall in Hopt |- *. intros m Hm.
    now rewrite (Hopt m Hm).
  - rewrite forallb_forall in Heach |- *. intros kv Hkv.
    apply Heach, Hincl, Hkv.
Qed.


(** ** Further properties of the declared signatures *)

Section BelongsToCalls.

Variable imported_members : string -> list ty -> list member.
Variable imported_accepts : string -> list ty -> expr -> bool.

Local Abbreviation members :=
  (members_of belongs_to_d_ts imported_members).
Local Abbreviation sub := (subtype belongs_to_d_ts).
Local Abbreviation can_assign :=
  (assignable belongs_to_d_ts imported_members imported_accepts).
Local Abbreviation call :=
  (call_result belongs_to_d_ts imported_members imported_accepts).
Local Abbreviation construct :=
  (construct_result belongs_to_d_ts imported_members imported_accepts).

Lemma get_mixin_signatures (TInstance : ty) :
  call_signatures belongs_to_d_ts (GetMixinT TInstance)
  = [Signature [Param "options" true GetOptionsT] (Promise TInstance)].
Proof. reflexivity. Qed.

(** X3: the [extends] chains of the file have at most two links: resolving
    members or heritage with any bound of two or more gives what the
    checker computes, so the bound it uses is never reached. *)
Theorem heritage_depth_two (n : nat) (s t : ty) :
  inherited belongs_to_d_ts imported_members (S (S n)) t
  = inherited belongs_to_d_ts imported_members
      (length (mod_decls belongs_to_d_ts)) t
  /\ extends_fuel belongs_to_d_ts (S (S n)) s t = sub s t.
Proof.
  split.
  - destruct t as [ | | | | | | x | name args | l r]; try reflexivity.
    change (length (mod_decls belongs_to_d_ts)) with 8.
    rewrite !inherited_step.
    destruct (lookup_decl belongs_to_d_ts name) as [d|] eqn:L;
      [|reflexivity].
    apply find_some in L as [Hin _].
    repeat (destruct Hin as [<-|Hin]; [destruct n; reflexivity|]).
    destruct Hin.
  - unfold subtype. change (length (mod_decls belongs_to_d_ts)) with 8.
    destruct s as [ | | | | | | x | name args | l r]; try reflexivity.
    rewrite !extends_step.
    destruct (lookup_decl belongs_to_d_ts name) as [d|] eqn:L;
      [|reflexivity].
    apply find_some in L as [Hin _]. f_equal.
    repeat (destruct Hin as [<-|Hin]; [destruct n; reflexivity|]).
    destruct Hin.
Qed.

(** X4: A value typed as the create mixin's options can be passed as the set
    mixin's options, and wherever [SaveOptions] or [CreateOptions] of the
    same type arguments is expected. *)
Theorem create_options_pass_as_set_options
  (strict : bool) (TModel TInstance TPrimaryKey : ty) :
  call strict (SetMixinT TInstance TPrimaryKey)
    [ETyped TInstance; ETyped (CreateMixinOptionsT TModel TInstance)]
  = Some (Promise TVoid)
  /\ can_assign strict (ETyped (CreateMixinOptionsT TModel TInstance))
       (SaveOptionsT TInstance) = true
  /\ can_assign strict (ETyped (CreateMixinOptionsT TModel TInstance))
       (CreateOptionsT TModel TInstance) = true.
Proof.
  assert (S1 : sub (CreateMixinOptionsT TModel TInstance)
                 (SetOptionsT TInstance) = true).
  { cbn. rewrite ty_eqb_refl. cbn. now rewrite ?orb_true_r. }
  assert (S2 : sub (CreateMixinOptionsT TModel TInstance)
                 (SaveOptionsT TInstance) = true).
  { cbn. rewrite ty_eqb_refl. cbn. now rewrite ?orb_true_r. }
  assert (S3 : sub (CreateMixinOptionsT TModel TInstance)
                 (CreateOptionsT TModel TInstance) = true).
  { cbn. rewrite !ty_eqb_refl. reflexivity. }
  repeat split.
  - erewrite call_single by apply set_mixin_signatures.
    cbn [s_params s_return accepts]. unfold arg_ok.
    cbn [p_optional p_type].
    rewrite typed_assignable.
    2:{ cbn. intros x Hx. rewrite !in_app_iff. auto. }
    erewrite typed_assignable_subtype with (a := SetOptionsT TInstance);
      [reflexivity|reflexivity|now left|exact S1].
  - apply typed_assignable_subtype with (a := SaveOptionsT TInstance);
      [reflexivity|now left|exact S2].
  - apply typed_assignable_subtype
      with (a := CreateOptionsT TModel TInstance);
      [reflexivity|now left|exact S3].
Qed.


Lemma object_against_optional strict fl name args :
  structural belongs_to_d_ts name = true ->
  can_assign strict (EObject fl) (optional_type true (TRef name args))
  = record_ok (can_assign strict) fl (members (TRef name args)).
Proof.
  intros H. cbn [optional_type alts app assignable existsb]. rewrite H.
  now rewrite !orb_false_r.
Qed.

(** X6: an options literal whose [save] is not assignable to
    [boolean | undefined] is rejected by the set mixin and by the create
    mixin, whatever the first argument and the other fields. *)
Theorem save_flag_must_be_boolean
  (strict : bool) (TModel TInstance TPrimaryKey : ty)
  (a v : expr) (fl : list (string * expr)) :
  In ("save", v) fl ->
  can_assign strict v (TUnion TBoolean TUndefined) = false ->
  call strict (SetMixinT TInstance TPrimaryKey) [a; EObject fl] = None
  /\ call strict (CreateMixinT TModel TInstance) [a; EObject fl] = None.
Proof.
  intros Hin Hv. split.
  - erewrite call_single by apply set_mixin_signatures.
    cbn [s_params s_return accepts]. unfold arg_ok.
    cbn [p_optional p_type]. unfold SetOptionsT.
    rewrite object_against_optional by reflexivity.
    rewrite (record_rejects_value _ _ _ (Member "save" true TBoolean) v);
      [now rewrite ?andb_false_r| |exact Hin|exact Hv].
    cbn. rewrite !in_app_iff. cbn. auto 10.
  - erewrite call_single by apply create_mixin_signatures.
    cbn [s_params s_return accepts]. unfold arg_ok.
    cbn [p_optional p_type]. unfold CreateMixinOptionsT.
    rewrite object_against_optional by reflexivity.
    rewrite (record_rejects_value _ _ _ (Member "save" true TBoolean) v);
      [now rewrite ?andb_false_r| |exact Hin|exact Hv].
    cbn. rewrite !in_app_iff. cbn. auto 10.
Qed.

(** X7: an options literal whose [targetKey] is not assignable to
    [string | undefined] is rejected by the constructor of [BelongsTo]. *)
Theorem target_key_must_be_string
  (strict : bool) (TSource TTarget : ty)
  (a b v : expr) (fl : list (string * expr)) :
  In ("targetKey", v) fl ->
  can_assign strict v (TUnion TString TUndefined) = false ->
  construct strict (BelongsToT TSource TTarget) [a; b; EObject fl] = None.
Proof.
  intros Hin Hv. unfold construct_result.
  rewrite belongs_to_constructors. cbn [find accepts]. unfold arg_ok.
  cbn [p_optional p_type optional_type]. unfold BelongsToOptionsT.
  rewrite assignable_record by reflexivity.
  rewrite (record_rejects_value _ _ _ (Member "targetKey" true TString) v);
    [now rewrite ?andb_false_r| |exact Hin|exact Hv].
  cbn. rewrite !in_app_iff. cbn. auto 10.
Qed.

(** X8: no call passes more arguments than the signature declares: more than
    one to the get mixin, more than two to the set and create mixins; the
    constructor of [BelongsTo] takes neither fewer nor more than three. *)
Theorem no_surplus_arguments
  (strict : bool) (TModel TInstance TPrimaryKey TSource TTarget : ty) :
  (forall a b rest,
     call strict (GetMixinT TInstance) (a :: b :: rest) = None)
  /\ (forall a b c rest,
        call strict (SetMixinT TInstance TPrimaryKey) (a :: b :: c :: rest)
        = None)
  /\ (forall a b c rest,
        call strict (CreateMixinT TModel TInstance) (a :: b :: c :: rest)
        = None)
  /\ construct strict (BelongsToT TSource TTarget) [] = None
  /\ (forall a, construct strict (BelongsToT TSource TTarget) [a] = None)
  /\ (forall a b c e rest,
        construct strict (BelongsToT TSource TTarget)
          (a :: b :: c :: e :: rest)
        = None).
Proof.
  repeat split; intros.
  - erewrite call_single by apply get_mixin_signatures.
    destruct (accepts _ _ _ _ _ _) eqn:H; [|reflexivity].
    apply accepts_arity in H. cbn in H. lia.
  - erewrite call_single by apply set_mixin_signatures.
    destruct (accepts _ _ _ _ _ _) eqn:H; [|reflexivity].
    apply accepts_arity in H. cbn in H. lia.
  - erewrite call_single by apply create_mixin_signatures.
    destruct (accepts _ _ _ _ _ _) eqn:H; [|reflexivity].
    apply accepts_arity in H. cbn in H. lia.
  - unfold construct_result. rewrite belongs_to_constructors. cbn [find].
    destruct (accepts _ _ _ _ _ _) eqn:H; [|reflexivity].
    apply accepts_arity in H. cbn in H. lia.
  - unfold construct_result. rewrite belongs_to_constructors. cbn [find].
    destruct (accepts _ _ _ _ _ _) eqn:H; [|reflexivity].
    apply accepts_arity in H. cbn in H. lia.
Qed.

(** X9: under [strictNullChecks] the constructor of [BelongsTo] rejects
    [undefined] and [null] as its options, whatever the first two
    arguments; without it both are accepted. *)
Theorem constructor_options_not_nullish (TSource TTarget : ty) :
  (forall a b,
     construct true (BelongsToT TSource TTarget) [a; b; EUndefined] = None)
  /\ (forall a b,
        construct true (BelongsToT TSource TTarget) [a; b; ENull] = None)
  /\ construct false (BelongsToT TSource TTarget)
       [ETyped TSource; ETyped TTarget; EUndefined]
     = Some (BelongsToT TSource TTarget)
  /\ construct false (BelongsToT TSource TTarget)
       [ETyped TSource; ETyped TTarget; ENull]
     = Some (BelongsToT TSource TTarget).
Proof.
  repeat split; intros; unfold construct_result;
    rewrite belongs_to_constructors; cbn [find accepts]; unfold arg_ok;
    cbn [p_optional p_type optional_type].
  - replace (can_assign true EUndefined BelongsToOptionsT) with false
      by reflexivity.
    now rewrite ?andb_false_r.
  - replace (can_assign true ENull BelongsToOptionsT) with false
      by reflexivity.
    now rewrite ?andb_false_r.
  - rewrite !typed_assignable by apply incl_refl. reflexivity.
  - rewrite !typed_assignable by apply incl_refl. reflexivity.
Qed.

(** X10: the [values] of the create mixin are partial: every part of an
    accepted values literal is accepted. *)
Theorem create_values_sub_literal
  (strict : bool) (TModel TInstance : ty) (fl fl' : list (string * expr)) :
  incl fl' fl ->
  call strict (CreateMixinT TModel TInstance) [EObject fl]
  = Some (Promise TInstance) ->
  call strict (CreateMixinT TModel TInstance) [EObject fl']
  = Some (Promise TInstance).
Proof.
  intros Hincl.
  erewrite !call_single by apply create_mixin_signatures.
  cbn [s_params s_return accepts]. unfold arg_ok. cbn [p_optional p_type].
  unfold Partial. rewrite !object_against_optional by reflexivity.
  fold (Partial TInstance). rewrite partial_members.
  destruct (record_ok _ fl _) eqn:H; [|discriminate]. intros _.
  rewrite (record_ok_incl _ _ (forallb_make_optional _) Hincl H).
  reflexivity.
Qed.

(** X11: an object literal without [accessors] is not a [BelongsTo]: the
    member is required. *)
Theorem accessors_required
  (strict : bool) (TSource TTarget : ty) (fl : list (string * expr)) :
  assoc "accessors" fl = None ->
  can_assign strict (EObject fl) (BelongsToT TSource TTarget) = false.
Proof.
  intros Habs. unfold BelongsToT.
  rewrite assignable_record by reflexivity.
  apply record_rejects_missing
    with (m := Member "accessors" false (TRef "SingleAssociationAccessors" []));
    [|reflexivity|exact Habs].
  cbn. rewrite !in_app_iff. cbn. auto 10.
Qed.

End BelongsToCalls.

(** ** Concrete calls, continued *)

Lemma save_flag_must_be_boolean_witness :
  In ("save", EString "no") [("save", EString "no")]
  /\ assignable belongs_to_d_ts example_members example_accepts true
       (EString "no") (TUnion TBoolean TUndefined) = false
  /\ example_call true (SetMixinT InstanceT TNumber)
       [ETyped InstanceT; EObject [("save", EString "no")]] = None
  /\ example_call true (CreateMixinT (TRef "RoleModel" []) InstanceT)
       [ETyped InstanceT; EObject [("save", EString "no")]] = None.
Proof.
  split; [now left|]. split; [reflexivity|].
  apply (@save_flag_must_be_boolean example_members example_accepts true
           (TRef "RoleModel" []) InstanceT TNumber
           (ETyped InstanceT) (EString "no") [("save", EString "no")]);
    [now left|reflexivity].
Defined.

Lemma target_key_must_be_string_witness :
  In ("targetKey", ENumber 1) [("targetKey", ENumber 1)]
  /\ assignable belongs_to_d_ts example_members example_accepts true
       (ENumber 1) (TUnion TString TUndefined) = false
  /\ construct_result belongs_to_d_ts example_members example_accepts true
       (BelongsToT (TRef "User" []) (TRef "Role" []))
       [ ETyped (TRef "User" []); ETyped (TRef "Role" []);
         EObject [("targetKey", ENumber 1)] ]
     = None.
Proof.
  split; [now left|]. split; [reflexivity|].
  apply (@target_key_must_be_string example_members example_accepts true
           (TRef "User" []) (TRef "Role" [])
           (ETyped (TRef "User" [])) (ETyped (TRef "Role" []))
           (ENumber 1) [("targetKey", ENumber 1)]);
    [now left|reflexivity].
Defined.

Lemma create_values_sub_literal_witness :
  incl [("name", EString "admin")]
       [("id", ENumber 1); ("name", EString "admin")]
  /\ call_result belongs_to_d_ts role_members example_accepts true
       (CreateMixinT (TRef "RoleModel" []) RoleInstanceT)
       [EObject [("id", ENumber 1); ("name", EString "admin")]]
     = Some (Promise RoleInstanceT)
  /\ call_result belongs_to_d_ts role_members example_accepts true
       (CreateMixinT (TRef "RoleModel" []) RoleInstanceT)
       [EObject [("name", EString "admin")]]
     = Some (Promise RoleInstanceT).
Proof.
  assert (H : incl [("name", EString "admin")]
                [("id", ENumber 1); ("name", EString "admin")]).
  { intros x [<-|[]]. right. now left. }
  split; [exact H|]. split; [reflexivity|].
  apply (@create_values_sub_literal role_members example_accepts true
           (TRef "RoleModel" []) RoleInstanceT
           [("id", ENumber 1); ("name", EString "admin")]
           [("name", EString "admin")] H).
  reflexivity.
Defined.

Lemma accessors_required_witness :
  assoc "accessors" [("source", EString "user")] = None
  /\ assignable belongs_to_d_ts example_members example_accepts true
       (EObject [("source", EString "user")])
       (BelongsToT (TRef "User" []) (TRef "Role" [])) = false.
Proof.
  split; [reflexivity|].
  apply (@accessors_required example_members example_accepts true
           (TRef "User" []) (TRef "Role" []) [("source", EString "user")]).
  reflexivity.
Defined.
